(** * SupabaseManager: a singleton facade over the Supabase SDK

    Shallow embedding of [Api/shared/utils/supabase.py].  The module holds
    two configuration values read from the environment, a class attribute
    [_instance] caching the one manager object, and a family of one-line
    methods that forward to the SDK client stored in that object.

    The SDK is an external collaborator: it is modelled as an arbitrary
    transition function on an abstract world, answering each interaction
    (creating the client, reading an attribute of an SDK object, calling a
    method of an SDK object) with a value or an exception.  Every
    interaction the facade performs is appended to a trace, the way a
    recording mock would log it. *)

From stdpp Require Import base option list strings.

Local Open Scope string_scope.
Local Open Scope list_scope.
#[local] Set Warnings "-register-all".

(** ** Python values *)

(** The values that cross the facade.  SDK objects (client, auth proxy,
    bucket proxy, responses) are opaque and known by identity only. *)
Inductive pyval : Type :=
  | PNone
  | PBool (b : bool)
  | PInt (n : Z)
  | PStr (s : string)
  | PBytes (bs : list Byte.byte)
  | PList (xs : list pyval)
  | PDict (items : list (string * pyval))
  | PObj (id : nat).

(** [d[k]] on a dict literal: the last binding of a key wins, so the lookup
    scans the items from the right. *)
Fixpoint assoc_last (k : string) (items : list (string * pyval)) : option pyval :=
  match items with
  | [] => None
  | (k', v) :: rest =>
      match assoc_last k rest with
      | Some v' => Some v'
      | None => if String.eqb k k' then Some v else None
      end
  end.

Definition dict_get (k : string) (d : pyval) : option pyval :=
  match d with
  | PDict items => assoc_last k items
  | _ => None
  end.

(** ** Exceptions and results *)

Inductive exn : Type := PyExn (cls msg : string).

Definition ValueError (msg : string) : exn := PyExn "ValueError" msg.
Definition AttributeError (msg : string) : exn := PyExn "AttributeError" msg.

Inductive result (A : Type) : Type :=
  | Ok (a : A)
  | Raise (e : exn).
Arguments Ok {A} a.
Arguments Raise {A} e.

(** ** Interactions with the SDK *)

Inductive sdk_event : Type :=
  | CreateClient (url key : pyval)
  | GetAttr (obj : pyval) (name : string)
  | CallMethod (obj : pyval) (name : string)
      (args : list pyval) (kwargs : list (string * pyval)).

(** ** Process state *)

(** A [SupabaseManager] object: its only instance attribute is [client],
    which is absent until [__new__] assigns it. *)
Record manager : Type := Manager { client : option pyval }.

(** [_instance] is the class attribute; [heap] holds the manager objects
    ever allocated, an object's identity being its index; [trace] logs the
    SDK interactions in order; [world] is the SDK's own state. *)
Record process (W : Type) : Type := Process {
  _instance : option nat;
  heap : list manager;
  trace : list sdk_event;
  world : W
}.
Arguments Process {W} _ _ _ _.
Arguments _instance {W} _.
Arguments heap {W} _.
Arguments trace {W} _.
Arguments world {W} _.

(** ** The state-and-exception monad of the facade *)

Definition M (W A : Type) : Type := process W -> result A * process W.

Definition ret {W A} (a : A) : M W A := fun st => (Ok a, st).

Definition raise {W A} (e : exn) : M W A := fun st => (Raise e, st).

Definition bind {W A B} (m : M W A) (k : A -> M W B) : M W B :=
  fun st =>
    match m st with
    | (Ok a, st') => k a st'
    | (Raise e, st') => (Raise e, st')
    end.

Notation "x <- m ;; k" := (bind m (fun x => k))
  (at level 20, m at level 99, k at level 200, only parsing).

(** Python truthiness of an [Optional[str]]: [None] and [""] are falsy. *)
Definition truthy (v : option string) : bool :=
  match v with
  | None => false
  | Some s => negb (String.eqb s "")
  end.

(** The value [os.getenv] hands back. *)
Definition of_env (v : option string) : pyval :=
  match v with
  | None => PNone
  | Some s => PStr s
  end.

Definition config_error : exn :=
  ValueError "SUPABASE_URL and SUPABASE_KEY must be set in .env. Please check your environment configuration.".

Definition no_client_attribute : exn :=
  AttributeError "'SupabaseManager' object has no attribute 'client'".

Section Facade.

Context {W : Type}.

(** The SDK: what it answers to an interaction, and how its world moves. *)
Variable sdk : sdk_event -> W -> result pyval * W.

(** Module-level constants, set once when the module is imported. *)
Variables SUPABASE_URL SUPABASE_KEY : option string.

(** *** Primitive steps *)

(** One interaction with the SDK, logged. *)
Definition invoke (ev : sdk_event) : M W pyval :=
  fun st =>
    let (r, w) := sdk ev (world st) in
    (r, Process (_instance st) (heap st) (trace st ++ [ev]) w).

Definition get_instance : M W (option nat) :=
  fun st => (Ok (_instance st), st).

Definition set_instance (o : nat) : M W unit :=
  fun st => (Ok tt, Process (Some o) (heap st) (trace st) (world st)).

(** [super().__new__(cls)]: a fresh object with no attribute. *)
Definition object_new : M W nat :=
  fun st =>
    (Ok (length (heap st)),
     Process (_instance st) (heap st ++ [Manager None]) (trace st) (world st)).

(** [obj.client = c] *)
Definition setattr_client (obj : nat) (c : pyval) : M W unit :=
  fun st =>
    (Ok tt,
     Process (_instance st) (<[obj := Manager (Some c)]> (heap st))
       (trace st) (world st)).

(** [self.client]; an object without the attribute raises. *)
Definition getattr_client (self : nat) : M W pyval :=
  fun st =>
    match heap st !! self with
    | Some (Manager (Some c)) => (Ok c, st)
    | _ => (Raise no_client_attribute, st)
    end.

(** *** [SupabaseManager.__new__] *)

Definition __new__ : M W nat :=
  inst <- get_instance ;;
  match inst with
  | None =>
      if negb (truthy SUPABASE_URL) || negb (truthy SUPABASE_KEY)
      then raise config_error
      else
        obj <- object_new ;;
        _ <- set_instance obj ;;
        c <- invoke (CreateClient (of_env SUPABASE_URL) (of_env SUPABASE_KEY)) ;;
        _ <- setattr_client obj c ;;
        ret obj
  | Some obj => ret obj
  end.

(** *** Accessors *)

Definition get_client (self : nat) : M W pyval := getattr_client self.

Definition auth (self : nat) : M W pyval :=
  c <- getattr_client self ;;
  invoke (GetAttr c "auth").

Definition storage (self : nat) : M W pyval :=
  c <- getattr_client self ;;
  invoke (GetAttr c "storage").

Definition table (self : nat) (table_name : pyval) : M W pyval :=
  c <- getattr_client self ;;
  invoke (CallMethod c "table" [table_name] []).

(** *** Authentication *)

(** [user_metadata] is optional and defaults to [None]. *)
Definition sign_up (self : nat) (email password : pyval)
    (user_metadata : option pyval) : M W pyval :=
  let user_metadata := default PNone user_metadata in
  a <- auth self ;;
  invoke (CallMethod a "sign_up"
            [PDict [("email", email); ("password", password);
                    ("options", PDict [("data", user_metadata)])]] []).

Definition sign_in (self : nat) (email password : pyval) : M W pyval :=
  a <- auth self ;;
  invoke (CallMethod a "sign_in_with_password"
            [PDict [("email", email); ("password", password)]] []).

Definition sign_out (self : nat) (access_token : pyval) : M W pyval :=
  a <- auth self ;;
  invoke (CallMethod a "sign_out" [] []).

Definition get_user (self : nat) (access_token : pyval) : M W pyval :=
  a <- auth self ;;
  invoke (CallMethod a "get_user" [] [("jwt", access_token)]).

Definition refresh_token (self : nat) (refresh_token : pyval) : M W pyval :=
  a <- auth self ;;
  invoke (CallMethod a "refresh_session" [] [("refresh_token", refresh_token)]).

(** *** Storage *)

Definition create_bucket (self : nat) (bucket_name : pyval) : M W pyval :=
  s <- storage self ;;
  invoke (CallMethod s "create_bucket" [bucket_name] []).

Definition upload_file (self : nat)
    (bucket_name file_path file_content content_type : pyval) : M W pyval :=
  s <- storage self ;;
  b <- invoke (CallMethod s "from_" [bucket_name] []) ;;
  invoke (CallMethod b "upload"
            [file_path; file_content; PDict [("content-type", content_type)]] []).

Definition get_file_url (self : nat) (bucket_name file_path : pyval) : M W pyval :=
  s <- storage self ;;
  b <- invoke (CallMethod s "from_" [bucket_name] []) ;;
  invoke (CallMethod b "get_public_url" [file_path] []).

Definition delete_file (self : nat) (bucket_name file_path : pyval) : M W pyval :=
  s <- storage self ;;
  b <- invoke (CallMethod s "from_" [bucket_name] []) ;;
  invoke (CallMethod b "remove" [PList [file_path]] []).

End Facade.

(** * Callers and observations *)

(** ** Calls *)

(** The ten forwarding operations of the facade, with their arguments. *)
Inductive forward_op : Type :=
  | OpSignUp (email password : pyval) (user_metadata : option pyval)
  | OpSignIn (email password : pyval)
  | OpSignOut (access_token : pyval)
  | OpGetUser (access_token : pyval)
  | OpRefreshToken (refresh_token : pyval)
  | OpCreateBucket (bucket_name : pyval)
  | OpUploadFile (bucket_name file_path file_content content_type : pyval)
  | OpGetFileUrl (bucket_name file_path : pyval)
  | OpDeleteFile (bucket_name file_path : pyval)
  | OpTable (table_name : pyval).

(** Anything a caller can do with the class. *)
Inductive api_call : Type :=
  | CallNew
  | CallGetClient (self : nat)
  | CallAuth (self : nat)
  | CallStorage (self : nat)
  | CallForward (self : nat) (op : forward_op).

(** ** Observations on traces and outcomes *)

(** The SDK method a forwarding operation ends in. *)
Definition sdk_operation (op : forward_op) : string :=
  match op with
  | OpSignUp _ _ _ => "sign_up"
  | OpSignIn _ _ => "sign_in_with_password"
  | OpSignOut _ => "sign_out"
  | OpGetUser _ => "get_user"
  | OpRefreshToken _ => "refresh_session"
  | OpCreateBucket _ => "create_bucket"
  | OpUploadFile _ _ _ _ => "upload"
  | OpGetFileUrl _ _ => "get_public_url"
  | OpDeleteFile _ _ => "remove"
  | OpTable _ => "table"
  end.

Definition is_create_client (ev : sdk_event) : bool :=
  match ev with
  | CreateClient _ _ => true
  | _ => false
  end.

Definition is_call_to (name : string) (ev : sdk_event) : bool :=
  match ev with
  | CallMethod _ name' _ _ => String.eqb name name'
  | _ => false
  end.

Definition count_events (p : sdk_event -> bool) (tr : list sdk_event) : nat :=
  length (List.filter p tr).

Definition is_config_error {A} (r : result A) : bool :=
  match r with
  | Raise (PyExn cls msg) =>
      String.eqb cls "ValueError"
      && String.eqb msg "SUPABASE_URL and SUPABASE_KEY must be set in .env. Please check your environment configuration."
  | Ok _ => false
  end.

Definition initial {W} (w : W) : process W := Process None [] [] w.

(** A configuration value that is missing or empty. *)
Definition absent (v : option string) : Prop := v = None \/ v = Some "".

(** The SDK interactions an operation goes through, the first addressed to
    the client and each next one to the answer of the one before. *)
Definition sdk_route (op : forward_op) : list (pyval -> sdk_event) :=
  let via_auth (call : pyval -> sdk_event) :=
    [fun c => GetAttr c "auth"; call] in
  let via_bucket (bucket_name : pyval) (call : pyval -> sdk_event) :=
    [fun c => GetAttr c "storage";
     fun s => CallMethod s "from_" [bucket_name] [];
     call] in
  match op with
  | OpSignUp email password user_metadata =>
      via_auth (fun a =>
        CallMethod a "sign_up"
          [PDict [("email", email); ("password", password);
                  ("options", PDict [("data", default PNone user_metadata)])]] [])
  | OpSignIn email password =>
      via_auth (fun a =>
        CallMethod a "sign_in_with_password"
          [PDict [("email", email); ("password", password)]] [])
  | OpSignOut _ => via_auth (fun a => CallMethod a "sign_out" [] [])
  | OpGetUser access_token =>
      via_auth (fun a => CallMethod a "get_user" [] [("jwt", access_token)])
  | OpRefreshToken tok =>
      via_auth (fun a =>
        CallMethod a "refresh_session" [] [("refresh_token", tok)])
  | OpCreateBucket bucket_name =>
      [fun c => GetAttr c "storage";
       fun s => CallMethod s "create_bucket" [bucket_name] []]
  | OpUploadFile bucket_name file_path file_content content_type =>
      via_bucket bucket_name (fun b =>
        CallMethod b "upload"
          [file_path; file_content; PDict [("content-type", content_type)]] [])
  | OpGetFileUrl bucket_name file_path =>
      via_bucket bucket_name (fun b =>
        CallMethod b "get_public_url" [file_path] [])
  | OpDeleteFile bucket_name file_path =>
      via_bucket bucket_name (fun b =>
        CallMethod b "remove" [PList [file_path]] [])
  | OpTable table_name => [fun c => CallMethod c "table" [table_name] []]
  end.

Definition is_ok {A} (r : result A) : bool :=
  match r with
  | Ok _ => true
  | Raise _ => false
  end.

(** The only interactions [sign_out] may have with the SDK. *)
Definition auth_or_bare_sign_out (ev : sdk_event) : bool :=
  match ev with
  | GetAttr _ name => String.eqb name "auth"
  | CallMethod _ name [] [] => String.eqb name "sign_out"
  | _ => false
  end.

(** The size of a value, counting the containers it nests. *)
Fixpoint pysize (v : pyval) : nat :=
  match v with
  | PList xs =>
      S ((fix go (l : list pyval) : nat :=
            match l with
            | [] => 0
            | x :: l' => pysize x + go l'
            end) xs)
  | PDict items =>
      S ((fix go (l : list (string * pyval)) : nat :=
            match l with
            | [] => 0
            | (_, x) :: l' => pysize x + go l'
            end) items)
  | _ => 1
  end.

Section Callers.

Context {W : Type}.
Variable sdk : sdk_event -> W -> result pyval * W.
Variables SUPABASE_URL SUPABASE_KEY : option string.

Definition run_forward (op : forward_op) (self : nat) : M W pyval :=
  match op with
  | OpSignUp email password user_metadata =>
      sign_up sdk self email password user_metadata
  | OpSignIn email password => sign_in sdk self email password
  | OpSignOut access_token => sign_out sdk self access_token
  | OpGetUser access_token => get_user sdk self access_token
  | OpRefreshToken tok => refresh_token sdk self tok
  | OpCreateBucket bucket_name => create_bucket sdk self bucket_name
  | OpUploadFile bucket_name file_path file_content content_type =>
      upload_file sdk self bucket_name file_path file_content content_type
  | OpGetFileUrl bucket_name file_path =>
      get_file_url sdk self bucket_name file_path
  | OpDeleteFile bucket_name file_path =>
      delete_file sdk self bucket_name file_path
  | OpTable table_name => table sdk self table_name
  end.

(** The state a call leaves behind, whether it returned or raised (the
    caller is free to catch the exception and go on). *)
Definition exec (c : api_call) (st : process W) : process W :=
  match c with
  | CallNew => snd (__new__ sdk SUPABASE_URL SUPABASE_KEY st)
  | CallGetClient self => snd (get_client self st)
  | CallAuth self => snd (auth sdk self st)
  | CallStorage self => snd (storage sdk self st)
  | CallForward self op => snd (run_forward op self st)
  end.

Definition run_calls (cs : list api_call) (st : process W) : process W :=
  foldl (fun st c => exec c st) st cs.

(** [n] construction attempts in a row, each result kept. *)
Fixpoint attempts (n : nat) (st : process W) : list (result nat) * process W :=
  match n with
  | O => ([], st)
  | S n' =>
      let (r, st1) := __new__ sdk SUPABASE_URL SUPABASE_KEY st in
      let (rs, st2) := attempts n' st1 in
      (r :: rs, st2)
  end.

(** The events a computation adds to the trace. *)
Definition emitted {A} (m : M W A) (st : process W) : list sdk_event :=
  drop (length (trace st)) (trace (snd (m st))).

(** Feed the events to the SDK one after the other; [Some] world when
    every one of them is answered with a value. *)
Fixpoint replay (evs : list sdk_event) (w : W) : option W :=
  match evs with
  | [] => Some w
  | ev :: evs' =>
      match sdk ev w with
      | (Ok _, w') => replay evs' w'
      | (Raise _, _) => None
      end
  end.

(** Run the interactions in order, stopping at the first that raises. *)
Fixpoint pipeline (steps : list (pyval -> sdk_event)) (x : pyval) : M W pyval :=
  match steps with
  | [] => ret x
  | f :: steps' => y <- invoke sdk (f x) ;; pipeline steps' y
  end.

(** A computation is quiet when it keeps [_instance] and the heap and
    only appends events other than [create_client] to the trace. *)
Definition quiet {A} (m : M W A) : Prop :=
  forall st,
    _instance (snd (m st)) = _instance st
    /\ heap (snd (m st)) = heap st
    /\ exists evs,
         trace (snd (m st)) = trace st ++ evs
         /\ count_events is_create_client evs = 0.

(** Either nothing has been constructed, or exactly one manager object
    exists, it is the stored one, and [create_client] ran exactly once. *)
Definition singleton_inv (st : process W) : Prop :=
  match _instance st with
  | None => heap st = [] /\ count_events is_create_client (trace st) = 0
  | Some obj =>
      obj = 0 /\ length (heap st) = 1
      /\ count_events is_create_client (trace st) = 1
  end.

End Callers.

(** ** A recording stub SDK *)

(** The stub's world is its record of calls; its answers are canned. *)
Definition canned_response : pyval :=
  PDict [("user", PObj 100); ("session", PObj 101)].

Definition canned (ev : sdk_event) : result pyval :=
  match ev with
  | CreateClient _ _ => Ok (PObj 1)
  | GetAttr _ name =>
      if String.eqb name "auth" then Ok (PObj 2)
      else if String.eqb name "storage" then Ok (PObj 3)
      else Raise (AttributeError name)
  | CallMethod _ name _ _ =>
      if String.eqb name "from_" then Ok (PObj 4)
      else if String.eqb name "get_public_url"
      then Ok (PStr "https://x.test/storage/v1/object/public/avatars/me.png")
      else if String.eqb name "table" then Ok (PObj 5)
      else Ok canned_response
  end.

Definition stub (ev : sdk_event) (record : list sdk_event)
    : result pyval * list sdk_event :=
  (canned ev, record ++ [ev]).

(** A stub whose every method call fails the way the backend would. *)
Definition sdk_failure : exn := PyExn "AuthApiError" "Invalid login credentials".

Definition failing_stub (ev : sdk_event) (record : list sdk_event)
    : result pyval * list sdk_event :=
  match ev with
  | CallMethod _ _ _ _ => (Raise sdk_failure, record ++ [ev])
  | _ => stub ev record
  end.

(** A stub that rejects the credentials in [create_client]. *)
Definition rejecting_stub (ev : sdk_event) (record : list sdk_event)
    : result pyval * list sdk_event :=
  match ev with
  | CreateClient _ _ => (Raise (PyExn "SupabaseException" "Invalid URL"), record ++ [ev])
  | _ => stub ev record
  end.

(** The process right after a successful construction against the stub. *)
Definition ready : process (list sdk_event) :=
  snd (__new__ stub (Some "https://x.test") (Some "k") (initial [])).

(** The configuration error as the specification words it: over the [n]
    construction attempts of a process it is raised exactly once, at the
    first attempt. *)
Definition raised_exactly_once_at_first {W}
    (sdk : sdk_event -> W -> result pyval * W) (url key : option string)
    (w : W) (n : nat) : Prop :=
  let rs := fst (attempts sdk url key n (initial w)) in
  (exists r, head rs = Some r /\ is_config_error r = true)
  /\ length (List.filter is_config_error rs) = 1.

(** A [create_client] event is well configured when it carries the two
    configured values, both of them non-empty strings. *)
Definition configured_create (url key : option string) (ev : sdk_event) : Prop :=
  is_create_client ev = true ->
  exists u k,
    url = Some u /\ key = Some k /\ u <> "" /\ k <> ""
    /\ ev = CreateClient (PStr u) (PStr k).

(** * Properties *)

(** ** Basic facts *)

Lemma truthy_absent v : truthy v = false <-> absent v.
Proof.
  unfold absent. destruct v as [s|]; simpl.
  - rewrite negb_false_iff, String.eqb_eq. split.
    + intros ->. now right.
    + intros [H|H]; congruence.
  - split; auto.
Qed.

Lemma unconfigured url key :
  absent url \/ absent key ->
  negb (truthy url) || negb (truthy key) = true.
Proof.
  intros [H|H]; apply truthy_absent in H; rewrite H; simpl; auto.
  apply orb_true_r.
Qed.

Lemma count_events_app p tr1 tr2 :
  count_events p (tr1 ++ tr2) = count_events p tr1 + count_events p tr2.
Proof. unfold count_events. now rewrite List.filter_app, length_app. Qed.

(** ** Construction *)

Section Construction.

Context {W : Type}.
Variable sdk : sdk_event -> W -> result pyval * W.
Variables url key : option string.

Let new := __new__ sdk url key.
Let create := CreateClient (of_env url) (of_env key).

(** An existing instance is handed back and nothing moves. *)
Lemma new_cached st obj :
  _instance st = Some obj -> new st = (Ok obj, st).
Proof.
  intros H. unfold new, __new__, bind, get_instance. now rewrite H.
Qed.

(** Without both credentials the guard raises before anything is
    allocated, stored or sent. *)
Lemma new_unconfigured st :
  _instance st = None -> absent url \/ absent key ->
  new st = (Raise config_error, st).
Proof.
  intros H Habs. unfold new, __new__, bind, get_instance. rewrite H.
  now rewrite (unconfigured _ _ Habs).
Qed.

(** The first construction with both credentials: the object is
    allocated and stored in [_instance] before [create_client] runs. *)
Lemma new_first st :
  _instance st = None -> truthy url = true -> truthy key = true ->
  new st =
    let obj := length (heap st) in
    match sdk create (world st) with
    | (Ok c, w) =>
        (Ok obj,
         Process (Some obj) (heap st ++ [Manager (Some c)])
           (trace st ++ [create]) w)
    | (Raise e, w) =>
        (Raise e,
         Process (Some obj) (heap st ++ [Manager None])
           (trace st ++ [create]) w)
    end.
Proof.
  intros H Hu Hk.
  unfold new, __new__, bind, get_instance, object_new, set_instance,
    invoke, setattr_client, ret, create.
  rewrite H, Hu, Hk. simpl.
  destruct (sdk _ (world st)) as [[c|e] w]; simpl; [|reflexivity].
  now rewrite insert_app_r_alt, Nat.sub_diag by lia.
Qed.

(** A construction that returns has stored what it returns. *)
Lemma new_ok_stored st obj st1 :
  new st = (Ok obj, st1) -> _instance st1 = Some obj.
Proof.
  destruct (_instance st) as [o|] eqn:Hi.
  - rewrite (new_cached _ _ Hi). now intros [= <- <-].
  - destruct (truthy url) eqn:Hu; [destruct (truthy key) eqn:Hk|].
    + rewrite (new_first _ Hi Hu Hk). simpl.
      destruct (sdk _ (world st)) as [[c|e] w]; [|discriminate].
      now intros [= <- <-].
    + rewrite new_unconfigured; auto; [discriminate|].
      right. now apply truthy_absent.
    + rewrite new_unconfigured; auto; [discriminate|].
      left. now apply truthy_absent.
Qed.

End Construction.

(** ** Methods leave the singleton alone *)

Section Quiet.

Context {W : Type}.
Variable sdk : sdk_event -> W -> result pyval * W.

Lemma quiet_ret {A} (a : A) : quiet (W:=W) (ret a).
Proof.
  intros st. simpl. repeat split. exists []. now rewrite app_nil_r.
Qed.

Lemma quiet_bind {A B} (m : M W A) (k : A -> M W B) :
  quiet m -> (forall a, quiet (k a)) -> quiet (bind m k).
Proof.
  intros Hm Hk st. unfold bind. specialize (Hm st).
  destruct (m st) as [[a|e] st1]; simpl in *; [|exact Hm].
  destruct Hm as (Hi & Hh & evs & Ht & Hc).
  destruct (Hk a st1) as (Hi' & Hh' & evs' & Ht' & Hc').
  repeat split; try congruence.
  exists (evs ++ evs'). split.
  - now rewrite Ht', Ht, app_assoc.
  - rewrite count_events_app. lia.
Qed.

Lemma quiet_invoke ev : is_create_client ev = false -> quiet (invoke sdk ev).
Proof.
  intros Hev st. unfold invoke.
  destruct (sdk ev (world st)) as [r w]; simpl. repeat split.
  exists [ev]. split; [reflexivity|].
  unfold count_events. simpl. now rewrite Hev.
Qed.

Lemma quiet_getattr_client self : quiet (getattr_client (W:=W) self).
Proof.
  intros st. unfold getattr_client.
  destruct (heap st !! self) as [[[c|]]|]; simpl; repeat split;
    exists []; now rewrite app_nil_r.
Qed.

Ltac quiet_tac :=
  repeat first
    [ apply quiet_getattr_client
    | apply quiet_invoke; reflexivity
    | apply quiet_bind; [|intros ?] ].

Lemma quiet_auth self : quiet (auth sdk self).
Proof. unfold auth. quiet_tac. Qed.

Lemma quiet_storage self : quiet (storage sdk self).
Proof. unfold storage. quiet_tac. Qed.

Lemma quiet_run_forward op self : quiet (run_forward sdk op self).
Proof.
  destruct op; simpl;
    unfold sign_up, sign_in, sign_out, get_user, refresh_token,
      create_bucket, upload_file, get_file_url, delete_file, table,
      auth, storage;
    quiet_tac.
Qed.

End Quiet.

(** ** The singleton invariant *)

Section Singleton.

Context {W : Type}.
Variable sdk : sdk_event -> W -> result pyval * W.
Variables url key : option string.

Let new := __new__ sdk url key.
Let exec := exec sdk url key.
Let run_calls := run_calls sdk url key.

Lemma singleton_inv_initial (w : W) : singleton_inv (initial w).
Proof. now split. Qed.

Lemma quiet_inv {A} (m : M W A) st :
  quiet m -> singleton_inv st -> singleton_inv (snd (m st)).
Proof.
  intros Hq Hinv. destruct (Hq st) as (Hi & Hh & evs & Ht & Hc).
  unfold singleton_inv in *. rewrite Hi, Hh, Ht, count_events_app, Hc.
  now rewrite Nat.add_0_r.
Qed.

Lemma quiet_exec c :
  c <> CallNew -> quiet (fun st => (Ok tt, exec c st)).
Proof.
  intros Hc st. destruct c; [congruence| | | |]; simpl.
  - apply (quiet_getattr_client self st).
  - apply (quiet_auth sdk self st).
  - apply (quiet_storage sdk self st).
  - apply (quiet_run_forward sdk op self st).
Qed.

Lemma new_inv st : singleton_inv st -> singleton_inv (snd (new st)).
Proof.
  intros Hinv. destruct (_instance st) as [o|] eqn:Hi.
  - unfold new. now rewrite (new_cached _ _ _ _ _ Hi).
  - unfold singleton_inv in Hinv. rewrite Hi in Hinv.
    destruct Hinv as [Hh Hc].
    destruct (truthy url) eqn:Hu; [destruct (truthy key) eqn:Hk|].
    + unfold new. rewrite (new_first _ _ _ _ Hi Hu Hk). simpl.
      destruct (sdk _ (world st)) as [[c|e] w]; simpl;
        unfold singleton_inv; simpl;
        rewrite Hh, count_events_app, Hc; now repeat split.
    + unfold new. rewrite new_unconfigured; auto.
      * simpl. unfold singleton_inv. now rewrite Hi.
      * right. now apply truthy_absent.
    + unfold new. rewrite new_unconfigured; auto.
      * simpl. unfold singleton_inv. now rewrite Hi.
      * left. now apply truthy_absent.
Qed.

Lemma exec_inv c st : singleton_inv st -> singleton_inv (exec c st).
Proof.
  intros Hinv. destruct c; [now apply new_inv | ..];
    match goal with
    | |- singleton_inv (exec ?c st) =>
        apply (quiet_inv (fun st => (Ok tt, exec c st)) st);
          [apply quiet_exec; discriminate | exact Hinv]
    end.
Qed.

Lemma run_calls_inv cs st :
  singleton_inv st -> singleton_inv (run_calls cs st).
Proof.
  revert st. induction cs as [|c cs IH]; intros st Hinv; [exact Hinv|].
  simpl. apply IH. now apply exec_inv.
Qed.

Lemma exec_same_instance c st :
  c <> CallNew -> _instance (exec c st) = _instance st.
Proof. intros Hc. exact (proj1 (quiet_exec c Hc st)). Qed.

(** [_instance] is written once: no call ever replaces or clears it. *)
Lemma exec_keeps_instance c st obj :
  _instance st = Some obj -> _instance (exec c st) = Some obj.
Proof.
  intros Hi. destruct c.
  - change (exec CallNew st) with (snd (__new__ sdk url key st)).
    now rewrite (new_cached _ _ _ _ _ Hi).
  - now rewrite exec_same_instance.
  - now rewrite exec_same_instance.
  - now rewrite exec_same_instance.
  - now rewrite exec_same_instance.
Qed.

Lemma run_calls_keeps_instance cs st obj :
  _instance st = Some obj -> _instance (run_calls cs st) = Some obj.
Proof.
  revert st. induction cs as [|c cs IH]; intros st Hi; [exact Hi|].
  simpl. apply IH. now apply exec_keeps_instance.
Qed.

(** Without credentials no call ever stores an instance. *)
Lemma exec_stays_unconfigured c st :
  absent url \/ absent key ->
  _instance st = None -> _instance (exec c st) = None.
Proof.
  intros Habs Hi. destruct c.
  - change (exec CallNew st) with (snd (__new__ sdk url key st)).
    now rewrite (new_unconfigured _ _ _ _ Hi Habs).
  - now rewrite exec_same_instance.
  - now rewrite exec_same_instance.
  - now rewrite exec_same_instance.
  - now rewrite exec_same_instance.
Qed.

Lemma run_calls_stays_unconfigured cs st :
  absent url \/ absent key ->
  _instance st = None -> _instance (run_calls cs st) = None.
Proof.
  intros Habs. revert st.
  induction cs as [|c cs IH]; intros st Hi; [exact Hi|].
  simpl. apply IH. now apply exec_stays_unconfigured.
Qed.

End Singleton.

(** ** Construction: the claims *)

(** C1. For every combination of the service URL and the service key in
    which at least one is absent or the empty string, constructing the
    manager fails with the configuration error (a [ValueError]), at
    whatever point of the process the construction is attempted, and no
    client is constructed: the attempt leaves the process as it found it,
    with no stored instance, no manager object and no [create_client]
    call. *)
Theorem missing_credentials_config_error {W}
    (sdk : sdk_event -> W -> result pyval * W) (url key : option string)
    (w : W) (cs : list api_call) :
  absent url \/ absent key ->
  let st := run_calls sdk url key cs (initial w) in
  __new__ sdk url key st = (Raise (ValueError "SUPABASE_URL and SUPABASE_KEY must be set in .env. Please check your environment configuration."), st)
  /\ _instance st = None
  /\ heap st = []
  /\ count_events is_create_client (trace st) = 0.
Proof.
  intros Habs st.
  assert (Hi : _instance st = None)
    by (apply run_calls_stays_unconfigured; [exact Habs | reflexivity]).
  pose proof (run_calls_inv sdk url key cs _ (singleton_inv_initial w)) as Hinv.
  fold st in Hinv. unfold singleton_inv in Hinv. rewrite Hi in Hinv.
  destruct Hinv as [Hh Hc].
  split; [|auto].
  exact (new_unconfigured sdk url key st Hi Habs).
Qed.

Lemma missing_credentials_config_error_witness :
  (absent None \/ absent (Some "k"))
  /\ __new__ stub None (Some "k")
       (run_calls stub None (Some "k")
          [CallNew; CallForward 0 (OpSignIn (PStr "a@b.com") (PStr "pw"))]
          (initial []))
     = (Raise config_error, initial []).
Proof.
  split.
  - left. left. reflexivity.
  - apply (missing_credentials_config_error stub None (Some "k") []
             [CallNew; CallForward 0 (OpSignIn (PStr "a@b.com") (PStr "pw"))]).
    left. left. reflexivity.
Defined.

(** C2. Given non-empty credentials, the process never holds two manager
    objects nor calls [create_client] twice; a first construction that
    [create_client] answers returns the new manager; and once a
    construction has returned, every later construction, whatever calls
    come in between, returns the identical object and changes nothing. *)
Theorem singleton_identity {W}
    (sdk : sdk_event -> W -> result pyval * W) (url key : option string)
    (w : W) (cs : list api_call) :
  truthy url = true -> truthy key = true ->
  let st := run_calls sdk url key cs (initial w) in
  length (heap st) <= 1
  /\ count_events is_create_client (trace st) <= 1
  /\ (forall c w',
        _instance st = None ->
        sdk (CreateClient (of_env url) (of_env key)) (world st) = (Ok c, w') ->
        exists st1,
          __new__ sdk url key st = (Ok 0, st1)
          /\ _instance st1 = Some 0 /\ heap st1 = [Manager (Some c)])
  /\ (forall h st1,
        __new__ sdk url key st = (Ok h, st1) ->
        forall cs',
          let st2 := run_calls sdk url key cs' st1 in
          __new__ sdk url key st2 = (Ok h, st2)).
Proof.
  intros Hu Hk st.
  pose proof (run_calls_inv sdk url key cs _ (singleton_inv_initial w)) as Hinv.
  fold st in Hinv. unfold singleton_inv in Hinv.
  repeat split.
  - destruct (_instance st); [lia|]. destruct Hinv as [-> _]. simpl. lia.
  - destruct (_instance st); lia.
  - intros c w' Hi Hsdk. rewrite Hi in Hinv. destruct Hinv as [Hh _].
    rewrite (new_first sdk url key st Hi Hu Hk). simpl. rewrite Hsdk, Hh.
    eexists. repeat split.
  - intros h st1 Hnew cs' st2.
    apply new_cached. apply run_calls_keeps_instance.
    exact (new_ok_stored sdk url key st h st1 Hnew).
Qed.

Lemma singleton_identity_witness :
  let url := Some "https://x.test" in
  let key := Some "k" in
  (truthy url = true /\ truthy key = true)
  /\ (forall h st1,
        __new__ stub url key (initial []) = (Ok h, st1) ->
        forall cs',
          let st2 := run_calls stub url key cs' st1 in
          __new__ stub url key st2 = (Ok h, st2)).
Proof.
  split.
  - split; reflexivity.
  - apply (singleton_identity stub (Some "https://x.test") (Some "k") [] []);
      reflexivity.
Defined.

(** When [create_client] itself raises, the new object is already stored:
    the exception goes to the caller, and the next construction returns
    that object, which has no [client]. *)
Example rejected_construction_is_stored :
  attempts rejecting_stub (Some "u") (Some "k") 2 (initial [])
  = ([Raise (PyExn "SupabaseException" "Invalid URL"); Ok 0],
     Process (Some 0) [Manager None]
       [CreateClient (PStr "u") (PStr "k")]
       [CreateClient (PStr "u") (PStr "k")]).
Proof. reflexivity. Qed.

(** C8 as stated fails.  With no credentials at all, two construction
    attempts raise the configuration error twice: the second attempt finds
    [_instance] still [None], evaluates the guard again and raises again. *)
Lemma config_error_raised_again :
  fst (attempts stub None None 2 (initial []))
    = [Raise config_error; Raise config_error]
  /\ ~ raised_exactly_once_at_first stub None None [] 2.
Proof.
  split; [reflexivity|].
  intros [_ H]. vm_compute in H. discriminate.
Qed.

(** C8, amended. When a required credential is absent, the configuration
    error is raised at every construction attempt, the first included: [n]
    attempts raise it [n] times.  Each attempt is fatal: the handle is not
    constructed and the process is left unchanged, with no instance
    stored. *)
Theorem config_error_at_every_attempt {W}
    (sdk : sdk_event -> W -> result pyval * W) (url key : option string)
    (w : W) (n : nat) :
  absent url \/ absent key ->
  attempts sdk url key n (initial w) = (repeat (Raise config_error) n, initial w)
  /\ length (List.filter is_config_error
               (fst (attempts sdk url key n (initial w)))) = n
  /\ _instance (snd (attempts sdk url key n (initial w))) = None.
Proof.
  intros Habs.
  assert (H : attempts sdk url key n (initial w)
              = (repeat (Raise config_error) n, initial w)).
  { induction n as [|n IH]; [reflexivity|].
    simpl. rewrite (new_unconfigured sdk url key (initial w) eq_refl Habs).
    now rewrite IH. }
  rewrite H. repeat split. simpl.
  clear H. induction n as [|n IH]; [reflexivity|].
  simpl. now rewrite IH.
Qed.

Lemma config_error_at_every_attempt_witness :
  (absent (Some "") \/ absent (Some "k"))
  /\ attempts stub (Some "") (Some "k") 3 (initial [])
     = ([Raise config_error; Raise config_error; Raise config_error],
        initial []).
Proof.
  split.
  - left. right. reflexivity.
  - apply (config_error_at_every_attempt stub (Some "") (Some "k") [] 3).
    left. right. reflexivity.
Defined.

(** ** Forwarding *)

Section Forwarding.

Context {W : Type}.
Variable sdk : sdk_event -> W -> result pyval * W.

Lemma invoke_eq ev st r w :
  sdk ev (world st) = (r, w) ->
  invoke sdk ev st
  = (r, Process (_instance st) (heap st) (trace st ++ [ev]) w).
Proof. intros H. unfold invoke. now rewrite H. Qed.

Lemma invoke_at ev i h tr w r w' :
  sdk ev w = (r, w') ->
  invoke sdk ev (Process i h tr w) = (r, Process i h (tr ++ [ev]) w').
Proof. intros H. unfold invoke. simpl. now rewrite H. Qed.

Lemma getattr_client_eq self (st : process W) c :
  heap st !! self = Some (Manager (Some c)) ->
  getattr_client self st = (Ok c, st).
Proof. intros H. unfold getattr_client. now rewrite H. Qed.

(** The outcome of a pipeline is the outcome of the last interaction it
    reached; all the earlier ones were answered with a value; and if the
    outcome is a value, the interaction reached is the last step. *)
Lemma pipeline_outcome steps f x st :
  exists evs ev w r w',
    replay sdk evs (world st) = Some w
    /\ sdk ev w = (r, w')
    /\ pipeline sdk (f :: steps) x st
       = (r, Process (_instance st) (heap st) (trace st ++ evs ++ [ev]) w')
    /\ length evs <= length steps
    /\ (is_ok r = true ->
        exists g y, last (f :: steps) = Some g /\ ev = g y).
Proof.
  revert f x st. induction steps as [|g steps IH]; intros f x st.
  - destruct (sdk (f x) (world st)) as [r w1] eqn:E.
    exists [], (f x), (world st), r, w1. simpl.
    repeat split; auto.
    + unfold bind. rewrite (invoke_eq _ _ _ _ E). now destruct r.
    + intros _. now exists f, x.
  - destruct (sdk (f x) (world st)) as [[y|e] w1] eqn:E.
    + set (st1 := Process (_instance st) (heap st) (trace st ++ [f x]) w1).
      destruct (IH g y st1) as (evs & ev & w & r & w' & Hre & Hev & Hrun & Hlen & Hlast).
      exists (f x :: evs), ev, w, r, w'. repeat split; auto.
      * simpl. now rewrite E.
      * change (pipeline sdk (f :: g :: steps) x st)
          with (bind (invoke sdk (f x)) (pipeline sdk (g :: steps)) st).
        unfold bind. rewrite (invoke_eq _ _ _ _ E). fold st1.
        rewrite Hrun. simpl. now rewrite <- app_assoc.
      * simpl. lia.
    + exists [], (f x), (world st), (Raise e), w1. simpl.
      repeat split; auto.
      * unfold bind. now rewrite (invoke_eq _ _ _ _ E).
      * lia.
      * discriminate.
Qed.

(** Every forwarding method is the pipeline of its route, started on the
    manager's client. *)
Lemma run_forward_route op self st c :
  heap st !! self = Some (Manager (Some c)) ->
  run_forward sdk op self st = pipeline sdk (sdk_route op) c st.
Proof.
  intros Hself.
  destruct op; simpl;
    unfold sign_up, sign_in, sign_out, get_user, refresh_token,
      create_bucket, upload_file, get_file_url, delete_file, table,
      auth, storage, bind, ret;
    rewrite (getattr_client_eq _ _ _ Hself);
    repeat match goal with
           | |- context [invoke sdk ?ev ?s] =>
               destruct (invoke sdk ev s) as [[?|?] ?]
           end;
    reflexivity.
Qed.

Lemma emitted_eq {A} (m : M W A) st r i h evs w :
  m st = (r, Process i h (trace st ++ evs) w) -> emitted m st = evs.
Proof.
  intros H. unfold emitted. rewrite H. simpl. apply drop_app_length.
Qed.

End Forwarding.

Lemma singleton_list_neq (v : pyval) : PList [v] <> v.
Proof.
  intros H. apply (f_equal pysize) in H. simpl in H. lia.
Qed.

(** ** Forwarding: the claims *)

(** C3. For every email and password, [sign_in] on a constructed manager
    calls the SDK's [sign_in_with_password] exactly once, with the payload
    [{email: <email>, password: <password>}], and returns the SDK's answer
    as it is.  In particular, with URL "https://x.test", key "k", email
    "a@b.com" and password "pw" against the recording stub, the stub records
    exactly one password sign-in call, with that payload, and the facade
    returns the stub's canned response. *)
Theorem sign_in_forwards {W}
    (sdk : sdk_event -> W -> result pyval * W)
    (self : nat) (email password : pyval) (st : process W)
    (c a : pyval) (w1 w2 : W) (r : result pyval) :
  let call :=
    CallMethod a "sign_in_with_password"
      [PDict [("email", email); ("password", password)]] [] in
  heap st !! self = Some (Manager (Some c)) ->
  sdk (GetAttr c "auth") (world st) = (Ok a, w1) ->
  sdk call w1 = (r, w2) ->
  (sign_in sdk self email password st
   = (r, Process (_instance st) (heap st)
           (trace st ++ [GetAttr c "auth"; call]) w2)
   /\ List.filter (is_call_to "sign_in_with_password")
        (emitted (sign_in sdk self email password) st) = [call])
  /\ (let run :=
        (h <- __new__ stub (Some "https://x.test") (Some "k") ;;
         sign_in stub h (PStr "a@b.com") (PStr "pw")) (initial []) in
      fst run = Ok canned_response
      /\ List.filter (is_call_to "sign_in_with_password") (world (snd run))
         = [CallMethod (PObj 2) "sign_in_with_password"
              [PDict [("email", PStr "a@b.com"); ("password", PStr "pw")]] []]).
Proof.
  intros call Hself Hauth Hcall.
  assert (Hrun : sign_in sdk self email password st
                 = (r, Process (_instance st) (heap st)
                         (trace st ++ [GetAttr c "auth"; call]) w2)).
  { unfold sign_in, auth, bind.
    rewrite (getattr_client_eq _ _ _ Hself), (invoke_eq _ _ _ _ _ Hauth).
    rewrite (invoke_at _ _ _ _ _ _ _ _ Hcall).
    now rewrite <- app_assoc. }
  split; [split; [exact Hrun|] | split; reflexivity].
  now rewrite (emitted_eq _ _ _ _ _ _ _ Hrun).
Qed.

Lemma sign_in_forwards_witness :
  let st := snd (__new__ stub (Some "https://x.test") (Some "k") (initial [])) in
  let call :=
    CallMethod (PObj 2) "sign_in_with_password"
      [PDict [("email", PStr "a@b.com"); ("password", PStr "pw")]] [] in
  sign_in stub 0 (PStr "a@b.com") (PStr "pw") st
  = (Ok canned_response,
     Process (Some 0) [Manager (Some (PObj 1))]
       (trace st ++ [GetAttr (PObj 1) "auth"; call])
       (world st ++ [GetAttr (PObj 1) "auth"; call])).
Proof.
  intros st call.
  apply (sign_in_forwards stub 0 (PStr "a@b.com") (PStr "pw") st
           (PObj 1) (PObj 2) (world st ++ [GetAttr (PObj 1) "auth"])
           (world st ++ [GetAttr (PObj 1) "auth"; call]) (Ok canned_response));
    reflexivity.
Defined.

(** C4. For every bucket name, file path, file content and content type,
    [upload_file] on a constructed manager calls the SDK's [upload] on the
    bucket obtained for the given name, with the given path and content,
    and passes the content type inside the options mapping, as its
    "content-type" entry: the call has three positional arguments (path,
    content, options) and no keyword argument.  It returns the SDK's answer
    as it is. *)
Theorem upload_file_forwards {W}
    (sdk : sdk_event -> W -> result pyval * W)
    (self : nat) (bucket_name file_path file_content content_type : pyval)
    (st : process W) (c s b : pyval) (w1 w2 w3 : W) (r : result pyval) :
  let options := PDict [("content-type", content_type)] in
  let call := CallMethod b "upload" [file_path; file_content; options] [] in
  heap st !! self = Some (Manager (Some c)) ->
  sdk (GetAttr c "storage") (world st) = (Ok s, w1) ->
  sdk (CallMethod s "from_" [bucket_name] []) w1 = (Ok b, w2) ->
  sdk call w2 = (r, w3) ->
  upload_file sdk self bucket_name file_path file_content content_type st
  = (r, Process (_instance st) (heap st)
          (trace st ++ [GetAttr c "storage";
                        CallMethod s "from_" [bucket_name] [];
                        call])
          w3)
  /\ dict_get "content-type" options = Some content_type
  /\ List.filter (is_call_to "upload")
       (emitted (upload_file sdk self bucket_name file_path file_content
                   content_type) st) = [call].
Proof.
  intros options call Hself Hstorage Hfrom Hupload.
  assert (Hrun :
    upload_file sdk self bucket_name file_path file_content content_type st
    = (r, Process (_instance st) (heap st)
            (trace st ++ [GetAttr c "storage";
                          CallMethod s "from_" [bucket_name] [];
                          call])
            w3)).
  { unfold upload_file, storage, bind.
    rewrite (getattr_client_eq _ _ _ Hself), (invoke_eq _ _ _ _ _ Hstorage).
    rewrite (invoke_at _ _ _ _ _ _ _ _ Hfrom).
    rewrite (invoke_at _ _ _ _ _ _ _ _ Hupload).
    now rewrite <- !app_assoc. }
  split; [exact Hrun|]. split; [reflexivity|].
  now rewrite (emitted_eq _ _ _ _ _ _ _ Hrun).
Qed.

Lemma upload_file_forwards_witness :
  let storage_ev := GetAttr (PObj 1) "storage" in
  let from_ev := CallMethod (PObj 3) "from_" [PStr "avatars"] [] in
  let upload_ev :=
    CallMethod (PObj 4) "upload"
      [PStr "me.png"; PBytes [Byte.x89; Byte.x50];
       PDict [("content-type", PStr "image/png")]] [] in
  upload_file stub 0 (PStr "avatars") (PStr "me.png")
    (PBytes [Byte.x89; Byte.x50]) (PStr "image/png") ready
  = (Ok canned_response,
     Process (Some 0) [Manager (Some (PObj 1))]
       (trace ready ++ [storage_ev; from_ev; upload_ev])
       (world ready ++ [storage_ev; from_ev; upload_ev])).
Proof.
  intros storage_ev from_ev upload_ev.
  apply (upload_file_forwards stub 0 (PStr "avatars") (PStr "me.png")
           (PBytes [Byte.x89; Byte.x50]) (PStr "image/png") ready
           (PObj 1) (PObj 3) (PObj 4)
           (world ready ++ [storage_ev])
           (world ready ++ [storage_ev; from_ev])
           (world ready ++ [storage_ev; from_ev; upload_ev])
           (Ok canned_response));
    reflexivity.
Defined.

(** C5. For every bucket name and file path, [get_file_url] on a
    constructed manager returns exactly what the SDK's [get_public_url]
    answers for that path on the bucket obtained for that name. *)
Theorem get_file_url_forwards {W}
    (sdk : sdk_event -> W -> result pyval * W)
    (self : nat) (bucket_name file_path : pyval)
    (st : process W) (c s b : pyval) (w1 w2 w3 : W) (r : result pyval) :
  heap st !! self = Some (Manager (Some c)) ->
  sdk (GetAttr c "storage") (world st) = (Ok s, w1) ->
  sdk (CallMethod s "from_" [bucket_name] []) w1 = (Ok b, w2) ->
  sdk (CallMethod b "get_public_url" [file_path] []) w2 = (r, w3) ->
  get_file_url sdk self bucket_name file_path st
  = (r, Process (_instance st) (heap st)
          (trace st ++ [GetAttr c "storage";
                        CallMethod s "from_" [bucket_name] [];
                        CallMethod b "get_public_url" [file_path] []])
          w3).
Proof.
  intros Hself Hstorage Hfrom Hurl.
  unfold get_file_url, storage, bind.
  rewrite (getattr_client_eq _ _ _ Hself), (invoke_eq _ _ _ _ _ Hstorage).
  rewrite (invoke_at _ _ _ _ _ _ _ _ Hfrom).
  rewrite (invoke_at _ _ _ _ _ _ _ _ Hurl).
  now rewrite <- !app_assoc.
Qed.

Lemma get_file_url_forwards_witness :
  fst (get_file_url stub 0 (PStr "avatars") (PStr "me.png") ready)
  = Ok (PStr "https://x.test/storage/v1/object/public/avatars/me.png").
Proof.
  rewrite (get_file_url_forwards stub 0 (PStr "avatars") (PStr "me.png") ready
             (PObj 1) (PObj 3) (PObj 4)
             (world ready ++ [GetAttr (PObj 1) "storage"])
             (world ready ++ [GetAttr (PObj 1) "storage";
                              CallMethod (PObj 3) "from_" [PStr "avatars"] []])
             (world ready ++ [GetAttr (PObj 1) "storage";
                              CallMethod (PObj 3) "from_" [PStr "avatars"] [];
                              CallMethod (PObj 4) "get_public_url"
                                [PStr "me.png"] []])
             (Ok (PStr "https://x.test/storage/v1/object/public/avatars/me.png")));
    reflexivity.
Defined.

(** C6. For every forwarding operation (sign_up, sign_in, sign_out,
    get_user, refresh_token, create_bucket, upload_file, get_file_url,
    delete_file, table access) and every input, on a constructed manager:
    the outcome of the facade, value or exception, is the outcome of the
    last SDK interaction it performed, unchanged; every interaction before
    that one was answered with a value, so an interaction that raises is
    the last one (nothing is caught, retried or translated); and when the
    outcome is a value, that last interaction is the call of the
    operation's SDK method.  The facade changes nothing in the process but
    the trace and the SDK's world. *)
Theorem forwarding_is_transparent {W}
    (sdk : sdk_event -> W -> result pyval * W)
    (op : forward_op) (self : nat) (st : process W) (c : pyval) :
  heap st !! self = Some (Manager (Some c)) ->
  exists evs ev w r w',
    replay sdk evs (world st) = Some w
    /\ sdk ev w = (r, w')
    /\ run_forward sdk op self st
       = (r, Process (_instance st) (heap st) (trace st ++ evs ++ [ev]) w')
    /\ length evs <= 2
    /\ (is_ok r = true -> is_call_to (sdk_operation op) ev = true).
Proof.
  intros Hself. rewrite (run_forward_route sdk op self st c Hself).
  destruct op; simpl sdk_route;
    match goal with
    | |- context [pipeline sdk (?f :: ?steps) c st] =>
        destruct (pipeline_outcome sdk steps f c st)
          as (evs & ev & w & r & w' & Hre & Hev & Hrun & Hlen & Hlast)
    end;
    exists evs, ev, w, r, w';
    (repeat split; [exact Hre | exact Hev | exact Hrun | simpl in Hlen; lia |]);
    intros Hok; destruct (Hlast Hok) as (g & y & Hg & ->);
    simpl in Hg; injection Hg as <-; reflexivity.
Qed.

Lemma forwarding_is_transparent_witness :
  exists evs ev w w',
    replay failing_stub evs (world ready) = Some w
    /\ failing_stub ev w = (Raise sdk_failure, w')
    /\ run_forward failing_stub (OpSignIn (PStr "a@b.com") (PStr "pw")) 0 ready
       = (Raise sdk_failure,
          Process (_instance ready) (heap ready)
            (trace ready ++ evs ++ [ev]) w').
Proof.
  destruct (forwarding_is_transparent failing_stub
              (OpSignIn (PStr "a@b.com") (PStr "pw")) 0 ready (PObj 1) eq_refl)
    as (evs & ev & w & r & w' & Hre & Hev & Hrun & _).
  exists evs, ev, w, w'.
  assert (Hr : r = Raise sdk_failure).
  { apply (f_equal fst) in Hrun. simpl in Hrun. now rewrite <- Hrun. }
  rewrite <- Hr. auto.
Defined.

(** C7. The access token of [sign_out] is unused by the underlying call.
    On a constructed manager [sign_out] reads the client's [auth] and
    performs exactly one SDK call, [sign_out] with no positional and no
    keyword argument, and returns the SDK's answer as it is, whichever
    token it was given.  For any two tokens and the same process state,
    [sign_out] has the identical outcome and leaves the identical state
    (trace of SDK interactions included); whatever the state, its only
    interactions with the SDK are that attribute read and that bare
    call. *)
Theorem sign_out_ignores_token {W}
    (sdk : sdk_event -> W -> result pyval * W)
    (self : nat) (token1 token2 : pyval) (st : process W) :
  sign_out sdk self token1 st = sign_out sdk self token2 st
  /\ forallb auth_or_bare_sign_out (emitted (sign_out sdk self token1) st) = true
  /\ count_events (is_call_to "sign_out") (emitted (sign_out sdk self token1) st)
     <= 1
  /\ (forall (c a : pyval) (w1 w2 : W) (r : result pyval),
        heap st !! self = Some (Manager (Some c)) ->
        sdk (GetAttr c "auth") (world st) = (Ok a, w1) ->
        sdk (CallMethod a "sign_out" [] []) w1 = (r, w2) ->
        let st' :=
          Process (_instance st) (heap st)
            (trace st ++ [GetAttr c "auth"; CallMethod a "sign_out" [] []])
            w2 in
        sign_out sdk self token1 st = (r, st')
        /\ sign_out sdk self token2 st = (r, st')
        /\ List.filter (is_call_to "sign_out")
             (emitted (sign_out sdk self token1) st)
           = [CallMethod a "sign_out" [] []]).
Proof.
  split; [reflexivity|].
  assert (Hbounds :
    forallb auth_or_bare_sign_out (emitted (sign_out sdk self token1) st) = true
    /\ count_events (is_call_to "sign_out")
         (emitted (sign_out sdk self token1) st) <= 1).
  { unfold emitted, sign_out, auth, bind, getattr_client, invoke.
    destruct (heap st !! self) as [[[c|]]|]; simpl;
      try (rewrite drop_all; split; [reflexivity | unfold count_events; simpl; lia]).
    destruct (sdk (GetAttr c "auth") (world st)) as [[a|e] w1]; simpl.
    - destruct (sdk (CallMethod a "sign_out" [] []) w1) as [r w2]; simpl.
      rewrite <- app_assoc, drop_app_length. split; reflexivity.
    - rewrite drop_app_length. split; [reflexivity|].
      unfold count_events. simpl. lia. }
  destruct Hbounds as [Hall Hcount].
  split; [exact Hall|]. split; [exact Hcount|].
  intros c a w1 w2 r Hself Hauth Hcall st'.
  assert (Hrun : forall token, sign_out sdk self token st = (r, st')).
  { intros token. unfold sign_out, auth, bind.
    rewrite (getattr_client_eq _ _ _ Hself), (invoke_eq _ _ _ _ _ Hauth).
    rewrite (invoke_at _ _ _ _ _ _ _ _ Hcall).
    unfold st'. now rewrite <- app_assoc. }
  split; [apply Hrun|]. split; [apply Hrun|].
  now rewrite (emitted_eq _ _ _ _ _ _ _ (Hrun token1)).
Qed.

Lemma sign_out_ignores_token_witness :
  let call := CallMethod (PObj 2) "sign_out" [] [] in
  let st' :=
    Process (Some 0) [Manager (Some (PObj 1))]
      (trace ready ++ [GetAttr (PObj 1) "auth"; call])
      (world ready ++ [GetAttr (PObj 1) "auth"; call]) in
  sign_out stub 0 (PStr "token-a") ready = (Ok canned_response, st')
  /\ sign_out stub 0 (PStr "token-b") ready = (Ok canned_response, st')
  /\ List.filter (is_call_to "sign_out")
       (emitted (sign_out stub 0 (PStr "token-a")) ready) = [call].
Proof.
  intros call st'.
  destruct (sign_out_ignores_token stub 0 (PStr "token-a") (PStr "token-b") ready)
    as (_ & _ & _ & Hexact).
  exact (Hexact (PObj 1) (PObj 2)
           (world ready ++ [GetAttr (PObj 1) "auth"])
           (world ready ++ [GetAttr (PObj 1) "auth"; call])
           (Ok canned_response) eq_refl eq_refl eq_refl).
Defined.

(** C9. For every email and password, the payload [sign_up] sends to the
    SDK's [sign_up] has an "options" entry with a "data" field equal to the
    supplied user metadata; when the metadata argument is omitted the
    payload still has [options.data], set to [None]. *)
Theorem sign_up_sends_options_data {W}
    (sdk : sdk_event -> W -> result pyval * W)
    (self : nat) (email password : pyval) (user_metadata : option pyval)
    (st : process W) (c a : pyval) (w1 : W) :
  heap st !! self = Some (Manager (Some c)) ->
  sdk (GetAttr c "auth") (world st) = (Ok a, w1) ->
  exists payload options,
    emitted (sign_up sdk self email password user_metadata) st
    = [GetAttr c "auth"; CallMethod a "sign_up" [payload] []]
    /\ dict_get "email" payload = Some email
    /\ dict_get "password" payload = Some password
    /\ dict_get "options" payload = Some options
    /\ dict_get "data" options
       = Some (match user_metadata with
               | Some metadata => metadata
               | None => PNone
               end)
    /\ fst (sign_up sdk self email password user_metadata st)
       = fst (sdk (CallMethod a "sign_up" [payload] []) w1).
Proof.
  intros Hself Hauth.
  exists (PDict [("email", email); ("password", password);
                 ("options", PDict [("data", default PNone user_metadata)])]),
         (PDict [("data", default PNone user_metadata)]).
  repeat split; try (now destruct user_metadata).
  - unfold emitted, sign_up, auth, bind.
    rewrite (getattr_client_eq _ _ _ Hself), (invoke_eq _ _ _ _ _ Hauth).
    unfold invoke. simpl.
    destruct (sdk _ w1) as [r w2]. simpl.
    now rewrite <- app_assoc, drop_app_length.
  - unfold sign_up, auth, bind.
    rewrite (getattr_client_eq _ _ _ Hself), (invoke_eq _ _ _ _ _ Hauth).
    unfold invoke. simpl. now destruct (sdk _ w1).
Qed.

Lemma sign_up_sends_options_data_witness :
  exists payload,
    emitted (sign_up stub 0 (PStr "a@b.com") (PStr "pw") None) ready
    = [GetAttr (PObj 1) "auth"; CallMethod (PObj 2) "sign_up" [payload] []]
    /\ dict_get "options" payload = Some (PDict [("data", PNone)]).
Proof.
  destruct (sign_up_sends_options_data stub 0 (PStr "a@b.com") (PStr "pw") None
              ready (PObj 1) (PObj 2)
              (world ready ++ [GetAttr (PObj 1) "auth"]) eq_refl eq_refl)
    as (payload & options & Hem & _ & _ & Hopt & _).
  exists payload. split; [exact Hem|].
  vm_compute in Hem. injection Hem as <-. reflexivity.
Defined.

(** C10. For every bucket name and file path, [delete_file] on a
    constructed manager calls the SDK's [remove] on the bucket obtained
    for the given name with the one-element list [[file_path]], never with
    the bare path, and returns the SDK's answer as it is. *)
Theorem delete_file_wraps_path {W}
    (sdk : sdk_event -> W -> result pyval * W)
    (self : nat) (bucket_name file_path : pyval)
    (st : process W) (c s b : pyval) (w1 w2 w3 : W) (r : result pyval) :
  heap st !! self = Some (Manager (Some c)) ->
  sdk (GetAttr c "storage") (world st) = (Ok s, w1) ->
  sdk (CallMethod s "from_" [bucket_name] []) w1 = (Ok b, w2) ->
  sdk (CallMethod b "remove" [PList [file_path]] []) w2 = (r, w3) ->
  delete_file sdk self bucket_name file_path st
  = (r, Process (_instance st) (heap st)
          (trace st ++ [GetAttr c "storage";
                        CallMethod s "from_" [bucket_name] [];
                        CallMethod b "remove" [PList [file_path]] []])
          w3)
  /\ List.filter (is_call_to "remove")
       (emitted (delete_file sdk self bucket_name file_path) st)
     = [CallMethod b "remove" [PList [file_path]] []]
  /\ CallMethod b "remove" [PList [file_path]] []
     <> CallMethod b "remove" [file_path] [].
Proof.
  intros Hself Hstorage Hfrom Hremove.
  assert (Hrun :
    delete_file sdk self bucket_name file_path st
    = (r, Process (_instance st) (heap st)
            (trace st ++ [GetAttr c "storage";
                          CallMethod s "from_" [bucket_name] [];
                          CallMethod b "remove" [PList [file_path]] []])
            w3)).
  { unfold delete_file, storage, bind.
    rewrite (getattr_client_eq _ _ _ Hself), (invoke_eq _ _ _ _ _ Hstorage).
    rewrite (invoke_at _ _ _ _ _ _ _ _ Hfrom).
    rewrite (invoke_at _ _ _ _ _ _ _ _ Hremove).
    now rewrite <- !app_assoc. }
  split; [exact Hrun|]. split.
  - now rewrite (emitted_eq _ _ _ _ _ _ _ Hrun).
  - intros [= H]. exact (singleton_list_neq file_path H).
Qed.

Lemma delete_file_wraps_path_witness :
  List.filter (is_call_to "remove")
    (emitted (delete_file stub 0 (PStr "avatars") (PStr "me.png")) ready)
  = [CallMethod (PObj 4) "remove" [PList [PStr "me.png"]] []].
Proof.
  apply (delete_file_wraps_path stub 0 (PStr "avatars") (PStr "me.png") ready
           (PObj 1) (PObj 3) (PObj 4)
           (world ready ++ [GetAttr (PObj 1) "storage"])
           (world ready ++ [GetAttr (PObj 1) "storage";
                            CallMethod (PObj 3) "from_" [PStr "avatars"] []])
           (world ready ++ [GetAttr (PObj 1) "storage";
                            CallMethod (PObj 3) "from_" [PStr "avatars"] [];
                            CallMethod (PObj 4) "remove"
                              [PList [PStr "me.png"]] []])
           (Ok canned_response));
    reflexivity.
Defined.


(** * Further properties of the facade *)

(** ** A manager without a client *)

Section NoClient.

Context {W : Type}.
Variable sdk : sdk_event -> W -> result pyval * W.

Lemma getattr_client_missing self (st : process W) :
  (forall c, heap st !! self <> Some (Manager (Some c))) ->
  getattr_client self st = (Raise no_client_attribute, st).
Proof.
  intros H. unfold getattr_client.
  destruct (heap st !! self) as [[[c|]]|] eqn:E; try reflexivity.
  now destruct (H c).
Qed.

Lemma auth_missing self (st : process W) :
  (forall c, heap st !! self <> Some (Manager (Some c))) ->
  auth sdk self st = (Raise no_client_attribute, st).
Proof.
  intros H. unfold auth, bind. now rewrite (getattr_client_missing _ _ H).
Qed.

Lemma storage_missing self (st : process W) :
  (forall c, heap st !! self <> Some (Manager (Some c))) ->
  storage sdk self st = (Raise no_client_attribute, st).
Proof.
  intros H. unfold storage, bind. now rewrite (getattr_client_missing _ _ H).
Qed.

Lemma run_forward_missing op self (st : process W) :
  (forall c, heap st !! self <> Some (Manager (Some c))) ->
  run_forward sdk op self st = (Raise no_client_attribute, st).
Proof.
  intros H.
  destruct op; simpl;
    unfold sign_up, sign_in, sign_out, get_user, refresh_token,
      create_bucket, upload_file, get_file_url, delete_file, table,
      auth, storage, bind;
    now rewrite (getattr_client_missing _ _ H).
Qed.

End NoClient.

(** Every method called on a manager whose [client] was never assigned
    raises the [AttributeError] of the missing attribute, before any
    interaction with the SDK, and leaves the process as it was. *)
Theorem methods_need_client {W}
    (sdk : sdk_event -> W -> result pyval * W)
    (self : nat) (st : process W) :
  heap st !! self = Some (Manager None) ->
  get_client self st = (Raise no_client_attribute, st)
  /\ auth sdk self st = (Raise no_client_attribute, st)
  /\ storage sdk self st = (Raise no_client_attribute, st)
  /\ forall op, run_forward sdk op self st = (Raise no_client_attribute, st).
Proof.
  intros Hself.
  assert (H : forall c, heap st !! self <> Some (Manager (Some c)))
    by (intros c; rewrite Hself; discriminate).
  repeat split.
  - exact (getattr_client_missing self st H).
  - exact (auth_missing sdk self st H).
  - exact (storage_missing sdk self st H).
  - intros op. exact (run_forward_missing sdk op self st H).
Qed.

Lemma methods_need_client_witness :
  let st := snd (__new__ rejecting_stub (Some "u") (Some "k") (initial [])) in
  heap st !! 0 = Some (Manager None)
  /\ run_forward rejecting_stub (OpSignOut (PStr "token")) 0 st
     = (Raise no_client_attribute, st).
Proof.
  split; [reflexivity|].
  apply (methods_need_client rejecting_stub 0
           (snd (__new__ rejecting_stub (Some "u") (Some "k") (initial [])))).
  reflexivity.
Defined.

(** ** Construction, continued *)

Section ConstructionFurther.

Context {W : Type}.
Variable sdk : sdk_event -> W -> result pyval * W.
Variables url key : option string.

(** Once an instance is stored no call allocates or updates a manager. *)
Lemma exec_keeps_heap c (st : process W) obj :
  _instance st = Some obj -> heap (exec sdk url key c st) = heap st.
Proof.
  intros Hi. destruct c.
  - change (exec sdk url key CallNew st) with (snd (__new__ sdk url key st)).
    now rewrite (new_cached _ _ _ _ _ Hi).
  - exact (proj1 (proj2 (quiet_getattr_client self st))).
  - exact (proj1 (proj2 (quiet_auth sdk self st))).
  - exact (proj1 (proj2 (quiet_storage sdk self st))).
  - exact (proj1 (proj2 (quiet_run_forward sdk op self st))).
Qed.

Lemma run_calls_keeps_heap cs (st : process W) obj :
  _instance st = Some obj -> heap (run_calls sdk url key cs st) = heap st.
Proof.
  revert st. induction cs as [|c cs IH]; intros st Hi; [reflexivity|].
  simpl. rewrite IH.
  - now apply exec_keeps_heap with obj.
  - now apply exec_keeps_instance.
Qed.

Lemma count_events_zero p tr :
  count_events p tr = 0 -> Forall (fun ev => p ev = false) tr.
Proof.
  unfold count_events. induction tr as [|ev tr IH]; simpl; [constructor|].
  destruct (p ev) eqn:E; simpl; [discriminate|].
  intros H. constructor; auto.
Qed.

Lemma configured_create_other ev :
  is_create_client ev = false -> configured_create url key ev.
Proof. intros H Hc. congruence. Qed.

Lemma quiet_configured {A} (m : M W A) (st : process W) :
  quiet m ->
  Forall (configured_create url key) (trace st) ->
  Forall (configured_create url key) (trace (snd (m st))).
Proof.
  intros Hq Htr. destruct (Hq st) as (_ & _ & evs & -> & Hc).
  apply Forall_app. split; [exact Htr|].
  apply count_events_zero in Hc.
  eapply Forall_impl; [exact Hc|].
  intros ev. apply configured_create_other.
Qed.

Lemma new_configured (st : process W) :
  Forall (configured_create url key) (trace st) ->
  Forall (configured_create url key) (trace (snd (__new__ sdk url key st))).
Proof.
  intros Htr. destruct (_instance st) as [o|] eqn:Hi.
  - now rewrite (new_cached _ _ _ _ _ Hi).
  - destruct (truthy url) eqn:Hu; [destruct (truthy key) eqn:Hk|].
    + rewrite (new_first _ _ _ _ Hi Hu Hk). simpl.
      assert (Hev : configured_create url key
                      (CreateClient (of_env url) (of_env key))).
      { intros _. destruct url as [u|]; [|discriminate].
        destruct key as [k|]; [|discriminate].
        exists u, k. simpl in Hu, Hk.
        apply negb_true_iff, String.eqb_neq in Hu.
        apply negb_true_iff, String.eqb_neq in Hk.
        repeat split; auto. }
      destruct (sdk _ (world st)) as [[c|e] w']; simpl;
        apply Forall_app; split; auto.
    + rewrite new_unconfigured; auto. right. now apply truthy_absent.
    + rewrite new_unconfigured; auto. left. now apply truthy_absent.
Qed.

Lemma exec_configured c (st : process W) :
  Forall (configured_create url key) (trace st) ->
  Forall (configured_create url key) (trace (exec sdk url key c st)).
Proof.
  intros Htr. destruct c.
  - now apply new_configured.
  - exact (quiet_configured _ st (quiet_getattr_client self) Htr).
  - exact (quiet_configured _ st (quiet_auth sdk self) Htr).
  - exact (quiet_configured _ st (quiet_storage sdk self) Htr).
  - exact (quiet_configured _ st (quiet_run_forward sdk op self) Htr).
Qed.

End ConstructionFurther.

(** Whatever the caller does, [create_client] only ever receives the two
    configured values, and only when both are non-empty strings: no trace
    of the process holds a [create_client] call with [None] or [""]. *)
Theorem create_client_gets_the_credentials {W}
    (sdk : sdk_event -> W -> result pyval * W) (url key : option string)
    (w : W) (cs : list api_call) :
  Forall (configured_create url key)
    (trace (run_calls sdk url key cs (initial w))).
Proof.
  assert (H : forall st : process W,
             Forall (configured_create url key) (trace st) ->
             Forall (configured_create url key)
               (trace (run_calls sdk url key cs st))).
  { induction cs as [|c cs IH]; intros st Htr; [exact Htr|].
    simpl. apply IH. now apply exec_configured. }
  apply H. constructor.
Qed.

(** After a successful first construction the manager's client is the
    object [create_client] answered, for good: whatever calls follow,
    [get_client] returns that very object without any SDK interaction, and
    a construction still returns the same manager. *)
Theorem client_is_fixed {W}
    (sdk : sdk_event -> W -> result pyval * W) (url key : option string)
    (w w' : W) (c : pyval) (cs : list api_call) :
  truthy url = true -> truthy key = true ->
  sdk (CreateClient (of_env url) (of_env key)) w = (Ok c, w') ->
  let st1 := snd (__new__ sdk url key (initial w)) in
  let st2 := run_calls sdk url key cs st1 in
  fst (__new__ sdk url key (initial w)) = Ok 0
  /\ get_client 0 st2 = (Ok c, st2)
  /\ __new__ sdk url key st2 = (Ok 0, st2).
Proof.
  intros Hu Hk Hsdk st1 st2.
  assert (Hnew : __new__ sdk url key (initial w)
                 = (Ok 0, Process (Some 0) [Manager (Some c)]
                            [CreateClient (of_env url) (of_env key)] w')).
  { rewrite (new_first sdk url key (initial w) eq_refl Hu Hk). simpl.
    now rewrite Hsdk. }
  assert (Hi : _instance st1 = Some 0) by (unfold st1; now rewrite Hnew).
  assert (Hh : heap st2 = [Manager (Some c)]).
  { unfold st2. rewrite (run_calls_keeps_heap sdk url key cs st1 0 Hi).
    unfold st1. now rewrite Hnew. }
  split; [now rewrite Hnew|]. split.
  - apply getattr_client_eq. now rewrite Hh.
  - apply new_cached. now apply run_calls_keeps_instance.
Qed.

Lemma client_is_fixed_witness :
  let cs := [CallForward 0 (OpSignIn (PStr "a@b.com") (PStr "pw")); CallNew] in
  let st2 := run_calls stub (Some "https://x.test") (Some "k") cs ready in
  get_client 0 st2 = (Ok (PObj 1), st2).
Proof.
  apply (client_is_fixed stub (Some "https://x.test") (Some "k") []
           [CreateClient (PStr "https://x.test") (PStr "k")] (PObj 1)
           [CallForward 0 (OpSignIn (PStr "a@b.com") (PStr "pw")); CallNew]);
    reflexivity.
Defined.

(** When [create_client] raises on the first construction, its exception
    reaches the caller unchanged, but the new manager is already stored
    without a client.  From then on the process is stuck: no call changes
    its state, [create_client] is never tried again, every construction
    returns that manager, and every forwarding operation on it raises the
    [AttributeError] of the missing [client]. *)
Theorem rejected_construction_sticks {W}
    (sdk : sdk_event -> W -> result pyval * W) (url key : option string)
    (w w' : W) (e : exn) (cs : list api_call) :
  truthy url = true -> truthy key = true ->
  sdk (CreateClient (of_env url) (of_env key)) w = (Raise e, w') ->
  let st1 :=
    Process (Some 0) [Manager None]
      [CreateClient (of_env url) (of_env key)] w' in
  __new__ sdk url key (initial w) = (Raise e, st1)
  /\ run_calls sdk url key cs st1 = st1
  /\ __new__ sdk url key st1 = (Ok 0, st1)
  /\ forall op, run_forward sdk op 0 st1 = (Raise no_client_attribute, st1).
Proof.
  intros Hu Hk Hsdk st1.
  assert (Hmiss : forall self c,
             heap st1 !! self <> Some (Manager (Some c))).
  { intros [|self] c; simpl; discriminate. }
  assert (Hexec : forall c, exec sdk url key c st1 = st1).
  { intros [| self | self | self | self op].
    - change (exec sdk url key CallNew st1)
        with (snd (__new__ sdk url key st1)).
      now rewrite (new_cached sdk url key st1 0 eq_refl).
    - change (exec sdk url key (CallGetClient self) st1)
        with (snd (getattr_client self st1)).
      now rewrite (getattr_client_missing self st1 (Hmiss self)).
    - change (exec sdk url key (CallAuth self) st1)
        with (snd (auth sdk self st1)).
      now rewrite (auth_missing sdk self st1 (Hmiss self)).
    - change (exec sdk url key (CallStorage self) st1)
        with (snd (storage sdk self st1)).
      now rewrite (storage_missing sdk self st1 (Hmiss self)).
    - change (exec sdk url key (CallForward self op) st1)
        with (snd (run_forward sdk op self st1)).
      now rewrite (run_forward_missing sdk op self st1 (Hmiss self)). }
  split; [|split; [|split]].
  - rewrite (new_first sdk url key (initial w) eq_refl Hu Hk). simpl.
    now rewrite Hsdk.
  - induction cs as [|c cs IH]; [reflexivity|].
    simpl. now rewrite Hexec.
  - exact (new_cached sdk url key st1 0 eq_refl).
  - intros op. exact (run_forward_missing sdk op 0 st1 (Hmiss 0)).
Qed.

Lemma rejected_construction_sticks_witness :
  let st1 :=
    Process (Some 0) [Manager None] [CreateClient (PStr "u") (PStr "k")]
      [CreateClient (PStr "u") (PStr "k")] in
  run_calls rejecting_stub (Some "u") (Some "k")
    [CallNew; CallForward 0 (OpGetUser (PStr "token")); CallNew] st1 = st1.
Proof.
  apply (rejected_construction_sticks rejecting_stub (Some "u") (Some "k")
           [] [CreateClient (PStr "u") (PStr "k")]
           (PyExn "SupabaseException" "Invalid URL")
           [CallNew; CallForward 0 (OpGetUser (PStr "token")); CallNew]);
    reflexivity.
Defined.

(** ** Forwarding, continued *)

(** Whatever the manager, the arguments and the SDK's answers, a
    forwarding operation never touches the singleton: [_instance] and the
    manager objects are as before, the trace only grows, by at most three
    SDK interactions, and none of them is [create_client]. *)
Theorem forwarding_leaves_singleton_alone {W}
    (sdk : sdk_event -> W -> result pyval * W)
    (op : forward_op) (self : nat) (st : process W) :
  let st' := snd (run_forward sdk op self st) in
  let evs := emitted (run_forward sdk op self) st in
  _instance st' = _instance st
  /\ heap st' = heap st
  /\ trace st' = trace st ++ evs
  /\ length evs <= 3
  /\ count_events is_create_client evs = 0.
Proof.
  intros st' evs.
  destruct (quiet_run_forward sdk op self st) as (Hi & Hh & evs0 & Ht & Hc).
  assert (Hevs : evs = evs0).
  { unfold evs, emitted. rewrite Ht. apply drop_app_length. }
  rewrite Hevs. repeat split; auto.
  destruct (heap st !! self) as [[[c|]]|] eqn:Hself.
  - rewrite (run_forward_route sdk op self st c Hself) in Ht.
    assert (Hroute : exists f steps,
               sdk_route op = f :: steps /\ length steps <= 2).
    { destruct op; simpl; eexists _, _; split; try reflexivity; simpl; lia. }
    destruct Hroute as (f & steps & Hr & Hlen). rewrite Hr in Ht.
    destruct (pipeline_outcome sdk steps f c st)
      as (evs1 & ev & w & r & w' & _ & _ & Hrun & Hlen1 & _).
    rewrite Hrun in Ht. simpl in Ht. apply app_inv_head in Ht.
    rewrite <- Ht, length_app. simpl. lia.
  - rewrite run_forward_missing in Ht
      by (intros c; rewrite Hself; discriminate).
    simpl in Ht. rewrite <- (app_nil_r (trace st)) in Ht at 1.
    apply app_inv_head in Ht. rewrite <- Ht. simpl. lia.
  - rewrite run_forward_missing in Ht
      by (intros c; rewrite Hself; discriminate).
    simpl in Ht. rewrite <- (app_nil_r (trace st)) in Ht at 1.
    apply app_inv_head in Ht. rewrite <- Ht. simpl. lia.
Qed.

Section ForwardingFurther.

Context {W : Type}.
Variable sdk : sdk_event -> W -> result pyval * W.

(** What [auth] followed by one call adds to the trace, whatever the call
    answers. *)
Lemma emitted_via_auth (call : pyval -> sdk_event)
    self (st : process W) c a w1 :
  heap st !! self = Some (Manager (Some c)) ->
  sdk (GetAttr c "auth") (world st) = (Ok a, w1) ->
  emitted (bind (auth sdk self) (fun a => invoke sdk (call a))) st
  = [GetAttr c "auth"; call a].
Proof.
  intros Hself Hauth. unfold emitted, auth, bind.
  rewrite (getattr_client_eq _ _ _ Hself), (invoke_eq _ _ _ _ _ Hauth).
  unfold invoke. simpl. destruct (sdk (call a) w1) as [r w2]. simpl.
  now rewrite <- app_assoc, drop_app_length.
Qed.

End ForwardingFurther.

(** [get_user] on a constructed manager calls the SDK's [get_user] once,
    with no positional argument and the token as the keyword argument
    [jwt], and returns the SDK's answer as it is.  Unlike [sign_out], the
    token reaches the SDK: two tokens that lead to the same interactions
    are the same token. *)
Theorem get_user_passes_jwt {W}
    (sdk : sdk_event -> W -> result pyval * W)
    (self : nat) (access_token : pyval) (st : process W)
    (c a : pyval) (w1 w2 : W) (r : result pyval) :
  let call := CallMethod a "get_user" [] [("jwt", access_token)] in
  heap st !! self = Some (Manager (Some c)) ->
  sdk (GetAttr c "auth") (world st) = (Ok a, w1) ->
  sdk call w1 = (r, w2) ->
  get_user sdk self access_token st
  = (r, Process (_instance st) (heap st)
          (trace st ++ [GetAttr c "auth"; call]) w2)
  /\ forall other_token,
       emitted (get_user sdk self other_token) st
       = emitted (get_user sdk self access_token) st ->
       other_token = access_token.
Proof.
  intros call Hself Hauth Hcall. split.
  - unfold get_user, auth, bind.
    rewrite (getattr_client_eq _ _ _ Hself), (invoke_eq _ _ _ _ _ Hauth).
    rewrite (invoke_at _ _ _ _ _ _ _ _ Hcall).
    now rewrite <- app_assoc.
  - intros other_token. unfold get_user.
    rewrite !(emitted_via_auth sdk _ self st c a w1 Hself Hauth).
    now intros [= ->].
Qed.

Lemma get_user_passes_jwt_witness :
  let call := CallMethod (PObj 2) "get_user" [] [("jwt", PStr "token")] in
  get_user stub 0 (PStr "token") ready
  = (Ok canned_response,
     Process (Some 0) [Manager (Some (PObj 1))]
       (trace ready ++ [GetAttr (PObj 1) "auth"; call])
       (world ready ++ [GetAttr (PObj 1) "auth"; call])).
Proof.
  intros call.
  apply (get_user_passes_jwt stub 0 (PStr "token") ready (PObj 1) (PObj 2)
           (world ready ++ [GetAttr (PObj 1) "auth"])
           (world ready ++ [GetAttr (PObj 1) "auth"; call])
           (Ok canned_response));
    reflexivity.
Defined.

(** [refresh_token] on a constructed manager calls the SDK's
    [refresh_session] once, with no positional argument and the token as
    the keyword argument [refresh_token], and returns the SDK's answer as
    it is; two tokens that lead to the same interactions are the same
    token. *)
Theorem refresh_token_passes_keyword {W}
    (sdk : sdk_event -> W -> result pyval * W)
    (self : nat) (token : pyval) (st : process W)
    (c a : pyval) (w1 w2 : W) (r : result pyval) :
  let call := CallMethod a "refresh_session" [] [("refresh_token", token)] in
  heap st !! self = Some (Manager (Some c)) ->
  sdk (GetAttr c "auth") (world st) = (Ok a, w1) ->
  sdk call w1 = (r, w2) ->
  refresh_token sdk self token st
  = (r, Process (_instance st) (heap st)
          (trace st ++ [GetAttr c "auth"; call]) w2)
  /\ forall other_token,
       emitted (refresh_token sdk self other_token) st
       = emitted (refresh_token sdk self token) st ->
       other_token = token.
Proof.
  intros call Hself Hauth Hcall. split.
  - unfold refresh_token, auth, bind.
    rewrite (getattr_client_eq _ _ _ Hself), (invoke_eq _ _ _ _ _ Hauth).
    rewrite (invoke_at _ _ _ _ _ _ _ _ Hcall).
    now rewrite <- app_assoc.
  - intros other_token. unfold refresh_token.
    rewrite !(emitted_via_auth sdk _ self st c a w1 Hself Hauth).
    now intros [= ->].
Qed.

Lemma refresh_token_passes_keyword_witness :
  let call :=
    CallMethod (PObj 2) "refresh_session" [] [("refresh_token", PStr "r1")] in
  refresh_token failing_stub 0 (PStr "r1") ready
  = (Raise sdk_failure,
     Process (Some 0) [Manager (Some (PObj 1))]
       (trace ready ++ [GetAttr (PObj 1) "auth"; call])
       (world ready ++ [GetAttr (PObj 1) "auth"; call])).
Proof.
  intros call.
  apply (refresh_token_passes_keyword failing_stub 0 (PStr "r1") ready
           (PObj 1) (PObj 2)
           (world ready ++ [GetAttr (PObj 1) "auth"])
           (world ready ++ [GetAttr (PObj 1) "auth"; call])
           (Raise sdk_failure));
    reflexivity.
Defined.

(** [create_bucket] on a constructed manager reads the client's [storage]
    and calls [create_bucket] on it with the bucket name as only argument.
    If reading [storage] raises, that exception is the result and
    [create_bucket] is not called; otherwise the result is the SDK's
    answer to the call, value or exception, as it is. *)
Theorem create_bucket_forwards {W}
    (sdk : sdk_event -> W -> result pyval * W)
    (self : nat) (bucket_name : pyval) (st : process W) (c : pyval) :
  heap st !! self = Some (Manager (Some c)) ->
  match sdk (GetAttr c "storage") (world st) with
  | (Raise e, w1) =>
      create_bucket sdk self bucket_name st
      = (Raise e,
         Process (_instance st) (heap st)
           (trace st ++ [GetAttr c "storage"]) w1)
  | (Ok s, w1) =>
      let call := CallMethod s "create_bucket" [bucket_name] [] in
      create_bucket sdk self bucket_name st
      = (fst (sdk call w1),
         Process (_instance st) (heap st)
           (trace st ++ [GetAttr c "storage"; call]) (snd (sdk call w1)))
  end.
Proof.
  intros Hself. unfold create_bucket, storage, bind.
  rewrite (getattr_client_eq _ _ _ Hself).
  destruct (sdk (GetAttr c "storage") (world st)) as [[s|e] w1] eqn:Hst;
    rewrite (invoke_eq _ _ _ _ _ Hst); [|reflexivity].
  destruct (sdk (CallMethod s "create_bucket" [bucket_name] []) w1)
    as [r w2] eqn:Hcall.
  rewrite (invoke_at _ _ _ _ _ _ _ _ Hcall). simpl.
  now rewrite <- app_assoc.
Qed.

Lemma create_bucket_forwards_witness :
  create_bucket failing_stub 0 (PStr "avatars") ready
  = (Raise sdk_failure,
     Process (Some 0) [Manager (Some (PObj 1))]
       (trace ready ++ [GetAttr (PObj 1) "storage";
                        CallMethod (PObj 3) "create_bucket" [PStr "avatars"] []])
       (world ready ++ [GetAttr (PObj 1) "storage";
                        CallMethod (PObj 3) "create_bucket" [PStr "avatars"] []])).
Proof.
  exact (create_bucket_forwards failing_stub 0 (PStr "avatars") ready (PObj 1)
           eq_refl).
Defined.

(** [table] on a constructed manager is a single SDK interaction: the
    client's [table] method called with the table name as only argument,
    with no attribute of the client read before; the result is the SDK's
    answer, value or exception, as it is, and two names that lead to the
    same interaction are the same name. *)
Theorem table_forwards {W}
    (sdk : sdk_event -> W -> result pyval * W)
    (self : nat) (table_name : pyval) (st : process W) (c : pyval) :
  heap st !! self = Some (Manager (Some c)) ->
  let call := CallMethod c "table" [table_name] [] in
  table sdk self table_name st
  = (fst (sdk call (world st)),
     Process (_instance st) (heap st) (trace st ++ [call])
       (snd (sdk call (world st))))
  /\ forall other_name,
       emitted (table sdk self other_name) st
       = emitted (table sdk self table_name) st ->
       other_name = table_name.
Proof.
  intros Hself call.
  assert (Hrun : forall name,
    table sdk self name st
    = (fst (sdk (CallMethod c "table" [name] []) (world st)),
       Process (_instance st) (heap st)
         (trace st ++ [CallMethod c "table" [name] []])
         (snd (sdk (CallMethod c "table" [name] []) (world st))))).
  { intros name. unfold table, bind, invoke.
    rewrite (getattr_client_eq _ _ _ Hself).
    now destruct (sdk _ (world st)). }
  split; [apply Hrun|].
  intros other_name.
  rewrite (emitted_eq _ _ _ _ _ _ _ (Hrun other_name)).
  rewrite (emitted_eq _ _ _ _ _ _ _ (Hrun table_name)).
  now intros [= ->].
Qed.

Lemma table_forwards_witness :
  table stub 0 (PStr "tasks") ready
  = (Ok (PObj 5),
     Process (Some 0) [Manager (Some (PObj 1))]
       (trace ready ++ [CallMethod (PObj 1) "table" [PStr "tasks"] []])
       (world ready ++ [CallMethod (PObj 1) "table" [PStr "tasks"] []])).
Proof.
  exact (proj1 (table_forwards stub 0 (PStr "tasks") ready (PObj 1) eq_refl)).
Defined.

(** When obtaining the bucket fails, nothing is done to it: if the SDK's
    [from_] raises, then [upload_file], [get_file_url] and [delete_file]
    all raise that same exception, and neither [upload] nor
    [get_public_url] nor [remove] is called. *)
Theorem bucket_failure_stops_operation {W}
    (sdk : sdk_event -> W -> result pyval * W)
    (self : nat) (bucket_name file_path file_content content_type : pyval)
    (st : process W) (c s : pyval) (w1 w2 : W) (e : exn) :
  heap st !! self = Some (Manager (Some c)) ->
  sdk (GetAttr c "storage") (world st) = (Ok s, w1) ->
  sdk (CallMethod s "from_" [bucket_name] []) w1 = (Raise e, w2) ->
  let st' :=
    Process (_instance st) (heap st)
      (trace st ++ [GetAttr c "storage"; CallMethod s "from_" [bucket_name] []])
      w2 in
  upload_file sdk self bucket_name file_path file_content content_type st
  = (Raise e, st')
  /\ get_file_url sdk self bucket_name file_path st = (Raise e, st')
  /\ delete_file sdk self bucket_name file_path st = (Raise e, st').
Proof.
  intros Hself Hstorage Hfrom st'.
  repeat split;
    unfold upload_file, get_file_url, delete_file, storage, bind;
    rewrite (getattr_client_eq _ _ _ Hself), (invoke_eq _ _ _ _ _ Hstorage);
    rewrite (invoke_at _ _ _ _ _ _ _ _ Hfrom);
    unfold st'; now rewrite <- app_assoc.
Qed.

Lemma bucket_failure_stops_operation_witness :
  fst (delete_file failing_stub 0 (PStr "avatars") (PStr "me.png") ready)
  = Raise sdk_failure
  /\ count_events (is_call_to "remove")
       (trace (snd (delete_file failing_stub 0 (PStr "avatars")
                      (PStr "me.png") ready))) = 0.
Proof.
  destruct (bucket_failure_stops_operation failing_stub 0
              (PStr "avatars") (PStr "me.png") PNone PNone ready
              (PObj 1) (PObj 3)
              (world ready ++ [GetAttr (PObj 1) "storage"])
              (world ready ++ [GetAttr (PObj 1) "storage";
                               CallMethod (PObj 3) "from_" [PStr "avatars"] []])
              sdk_failure eq_refl eq_refl eq_refl)
    as (_ & _ & Hdel).
  rewrite Hdel. split; reflexivity.
Defined.
